(** * Bisection session engine of the rocket launch bot

    Shallow embedding of [bot/session_manager.py]: the per-user
    [UserSession] (binary search over the frames of a video, driven by
    yes/no answers) and the [SessionManager] registry of sessions.
    Python integers are unbounded and modelled as [Z]; methods that
    mutate [self] are functions returning the updated record. *)

From Stdlib Require Import ZArith Lia Ascii.
From stdpp Require Import base gmap strings pretty.

Open Scope Z_scope.

(** ** UserSession *)

Record UserSession := mkSession {
  user_id : Z;
  total_frames : Z;
  left_bound : Z;
  right_bound : Z;
  steps_taken : Z;
  found_frame : option Z;
  is_finished : bool;
  current_frame : Z
}.

(** Functional record updates, one per assigned attribute. *)
Definition set_left_bound (s : UserSession) (v : Z) : UserSession :=
  mkSession s.(user_id) s.(total_frames) v s.(right_bound) s.(steps_taken)
    s.(found_frame) s.(is_finished) s.(current_frame).
Definition set_right_bound (s : UserSession) (v : Z) : UserSession :=
  mkSession s.(user_id) s.(total_frames) s.(left_bound) v s.(steps_taken)
    s.(found_frame) s.(is_finished) s.(current_frame).
Definition set_current_frame (s : UserSession) (v : Z) : UserSession :=
  mkSession s.(user_id) s.(total_frames) s.(left_bound) s.(right_bound)
    s.(steps_taken) s.(found_frame) s.(is_finished) v.
Definition set_steps_taken (s : UserSession) (v : Z) : UserSession :=
  mkSession s.(user_id) s.(total_frames) s.(left_bound) s.(right_bound) v
    s.(found_frame) s.(is_finished) s.(current_frame).
Definition set_finished (s : UserSession) (found : Z) : UserSession :=
  mkSession s.(user_id) s.(total_frames) s.(left_bound) s.(right_bound)
    s.(steps_taken) (Some found) true s.(current_frame).

(** [_calculate_next_frame]: returns whether a frame was computed. *)
Definition _calculate_next_frame (s : UserSession) : bool * UserSession :=
  if s.(left_bound) <=? s.(right_bound) then
    let s1 := set_current_frame s ((s.(left_bound) + s.(right_bound)) / 2) in
    (true, set_steps_taken s1 (s1.(steps_taken) + 1))
  else (false, s).

(** [UserSession.__init__]. *)
Definition UserSession_init (uid tf : Z) : UserSession :=
  snd (_calculate_next_frame (mkSession uid tf 0 (tf - 1) 0 None false 0)).

(** [update_bounds has_launched]. *)
Definition update_bounds (has_launched : bool) (s : UserSession) : UserSession :=
  if has_launched then set_right_bound s (s.(current_frame) - 1)
  else set_left_bound s (s.(current_frame) + 1).

(** [next_step]: returns [True] when the search is complete. *)
Definition next_step (s : UserSession) : bool * UserSession :=
  if s.(right_bound) <? s.(left_bound) then
    if s.(left_bound) <? s.(total_frames) then (true, set_finished s s.(left_bound))
    else (true, set_finished s (s.(total_frames) - 1))
  else
    let '(has_next, s1) := _calculate_next_frame s in
    if negb has_next then (true, set_finished s1 s1.(current_frame))
    else (false, s1).

(** [is_complete]: a query, threading the (unchanged) object. *)
Definition is_complete (s : UserSession) : bool * UserSession :=
  (s.(is_finished), s).

(** [calculate_remaining_steps].  [int(math.log2(n))] for a positive
    integer [n] is the floor of its base-2 logarithm, [Z.log2 n]; the
    double-precision [log2] departs from it for some [n] just below a
    power of two from [2^49] on ([n = 2^49 - 1] gives 49), far above any
    frame count. *)
Definition calculate_remaining_steps (s : UserSession) : Z :=
  let remaining_range := s.(right_bound) - s.(left_bound) in
  if remaining_range <=? 0 then 0
  else Z.max 0 (Z.log2 (remaining_range + 1)).

Record ProgressInfo := mkProgress {
  pi_current_frame : Z;
  pi_total_frames : Z;
  pi_steps_taken : Z;
  pi_remaining_steps : Z;
  pi_progress_percentage : Z
}.

(** [get_progress_info]. [int((steps / total) * 100)] on the non-negative
    counters is modelled by the exact floor of [100 * steps / total]; the
    float product can land just below an integer (29/50 gives 57), a
    difference of one that, like the exact floor, is monotone in the
    ratio [steps / total]. *)
Definition get_progress_info (s : UserSession) : ProgressInfo * UserSession :=
  let remaining_steps := calculate_remaining_steps s in
  let total_estimated_steps := s.(steps_taken) + remaining_steps in
  let progress_percentage :=
    if 0 <? total_estimated_steps
    then Z.min 100 ((s.(steps_taken) * 100) / total_estimated_steps)
    else 100 in
  (mkProgress s.(current_frame) s.(total_frames) s.(steps_taken)
     remaining_steps progress_percentage, s).

Definition progress_percentage (s : UserSession) : Z :=
  (fst (get_progress_info s)).(pi_progress_percentage).

(** The answer handler ([handle_answer] in [command_handlers.py]) calls
    [session.update_bounds(has_launched)] followed by
    [session.next_step()]: this is one answer submission. *)
Definition submit_answer (has_launched : bool) (s : UserSession)
  : bool * UserSession :=
  next_step (update_bounds has_launched s).

(** Python calls either return or raise; the two kinds of failure the
    engine could report. *)
Inductive exn := InvalidArgument | InvalidState.

Inductive result (A : Type) := Ok (a : A) | Raise (e : exn).
Arguments Ok {A} a.
Arguments Raise {A} e.

(** Constructing [UserSession(user_id, total_frames)]: nothing in
    [__init__] or [_calculate_next_frame] raises. *)
Definition construct (uid tf : Z) : result UserSession :=
  Ok (UserSession_init uid tf).

(** Submitting an answer through the two method calls: neither raises. *)
Definition submitAnswer (has_launched : bool) (s : UserSession)
  : result (bool * UserSession) :=
  Ok (submit_answer has_launched s).

(** Repeated submission of an oracle's answer for the current probe
    until [next_step] reports completion; returns the final session and
    the number of submissions made (at most [fuel]). *)
Fixpoint run (fuel : nat) (oracle : Z -> bool) (s : UserSession)
  : UserSession * nat :=
  match fuel with
  | O => (s, O)
  | S f =>
      let '(done_, s1) := submit_answer (oracle s.(current_frame)) s in
      if done_ then (s1, 1%nat)
      else let '(s2, n) := run f oracle s1 in (s2, S n)
  end.

(** Sessions reachable from construction by answer submissions. *)
Inductive reachable : UserSession -> Prop :=
| reach_init uid tf : reachable (UserSession_init uid tf)
| reach_submit b s : reachable s -> reachable (snd (submit_answer b s)).

(** ** SessionManager *)

Definition create_session (m : gmap Z UserSession) (uid tf : Z)
  : UserSession * gmap Z UserSession :=
  let session := UserSession_init uid tf in
  (session, <[uid := session]> m).

Definition get_session (m : gmap Z UserSession) (uid : Z) : option UserSession :=
  m !! uid.

Definition end_session (m : gmap Z UserSession) (uid : Z) : gmap Z UserSession :=
  if decide (is_Some (m !! uid)) then delete uid m else m.

(** ** Python exceptions carrying their message *)

Inductive py_exn := ValueError (msg : string) | PyException (msg : string).

(** [str(e)]. *)
Definition exn_str (e : py_exn) : string :=
  match e with ValueError m | PyException m => m end.

Inductive pyres (A : Type) := Returned (a : A) | Raised (e : py_exn).
Arguments Returned {A} a.
Arguments Raised {A} e.

(** ** [BisectionAlgorithm.find_launch_frame] ([bot/frames.py]) *)

(** The awaited [frame_tester(await frame_getter(mid), mid)] is the
    oracle [tester mid].  The [while left + 1 < right] loop, returning
    [right] and the list of probed indices; every iteration narrows
    [right - left], so the wrapper's fuel [total_frames] is never the
    reason the loop stops. *)
Fixpoint bisect_loop (fuel : nat) (tester : Z -> bool) (left right : Z) : Z * list Z :=
  match fuel with
  | O => (right, [])
  | S f =>
      if left + 1 <? right then
        let mid := (left + right) / 2 in
        let '(res, probes) :=
          if tester mid then bisect_loop f tester left mid
          else bisect_loop f tester mid right in
        (res, mid :: probes)
      else (right, [])
  end.

Definition find_launch_frame (total_frames : Z) (tester : Z -> bool)
  : pyres (Z * list Z) :=
  if total_frames <? 1 then Raised (ValueError "Cannot bisect empty frame array")
  else Returned (bisect_loop (Z.to_nat total_frames) tester 0 (total_frames - 1)).

(** ** [FrameXClient] ([bot/framex_client.py]) *)

(** [self.base_url = Config.API_BASE.rstrip('/') + '/']. *)
Fixpoint drop_slashes (l : list Ascii.ascii) : list Ascii.ascii :=
  match l with
  | c :: r => if Ascii.eqb c "/"%char then drop_slashes r else l
  | [] => []
  end.

Definition rstrip_slash (x : string) : string :=
  String.string_of_list_ascii
    (rev (drop_slashes (rev (String.list_ascii_of_string x)))).

Definition normalize_base_url (api_base : string) : string :=
  rstrip_slash api_base +:+ "/".

(** The entries of the JSON list returned by [GET base_url + 'video/'];
    each is taken to carry the keys that [get_video_info] reads. *)
Record VideoInfo := mkVideo {
  v_name : string;
  v_width : Z;
  v_height : Z;
  v_frames : Z;
  v_frame_rate : list Z;
  v_url : string;
  v_first_frame : string;
  v_last_frame : string
}.

(** [get_video_info]: [videos] is the outcome of the request,
    [raise_for_status] and [response.json()]; the first entry with the
    requested name is returned, and every exception is re-raised as
    ["Failed to get video info: " + str(e)]. *)
Definition get_video_info (videos : pyres (list VideoInfo)) (video_name : string)
  : pyres VideoInfo :=
  let wrap e := Raised (PyException ("Failed to get video info: " +:+ exn_str e)) in
  match videos with
  | Raised e => wrap e
  | Returned vs =>
      match List.find (fun v => String.eqb v.(v_name) video_name) vs with
      | Some v => Returned v
      | None => wrap (PyException ("Video '" +:+ video_name +:+ "' not found in API response"))
      end
  end.

Record HttpResponse := mkResponse {
  status_code : Z;
  content : list Byte.byte
}.

Fixpoint startswith (prefix l : list Byte.byte) : bool :=
  match prefix, l with
  | [], _ => true
  | p :: ps, c :: cs => Byte.eqb p c && startswith ps cs
  | _ :: _, [] => false
  end.

Definition jpeg_magic : list Byte.byte := [Byte.xff; Byte.xd8; Byte.xff].

(** [get_frame_image]: [resp] is the outcome of [self.session.get(url)];
    the [except] clause re-raises unchanged. *)
Definition get_frame_image (resp : pyres HttpResponse) (frame_number : Z)
  : pyres (list Byte.byte) :=
  match resp with
  | Raised e => Raised e
  | Returned r =>
      if negb (r.(status_code) =? 200) then
        Raised (PyException ("Failed to fetch frame " +:+ pretty frame_number +:+
                             " - Status: " +:+ pretty r.(status_code)))
      else match r.(content) with
      | [] => Raised (PyException ("Empty frame data for frame " +:+ pretty frame_number))
      | frame_data =>
          if (Z.of_nat (length frame_data) <? 10) || negb (startswith jpeg_magic frame_data)
          then Raised (PyException ("Invalid image data received for frame " +:+ pretty frame_number))
          else Returned frame_data
      end
  end.

(** ** Telegram handlers ([handlers/command_handlers.py]), registry side *)

(** The global [session_manager] is the registry threaded through the
    handlers; messages sent to the chat are summarised by a reply value.
    The registry holds the session object itself, so a mutation of the
    session by a handler is written back at the user's key. *)

Definition set_found_frame (s : UserSession) (v : Z) : UserSession :=
  mkSession s.(user_id) s.(total_frames) s.(left_bound) s.(right_bound)
    s.(steps_taken) (Some v) s.(is_finished) s.(current_frame).

Inductive StartReply :=
| StartWelcome (total_frames estimated_steps : Z)
| StartError (e : py_exn)
| RestartError.

(** [start_command]: end any session of the user, fetch the video's
    metadata, create a session over [video_info.frames] and report the
    frame count and the estimated steps
    ([remaining_steps + steps_taken]). *)
Definition start_command (m : gmap Z UserSession) (uid : Z)
    (videos : pyres (list VideoInfo)) (video_name : string)
  : gmap Z UserSession * StartReply :=
  let m1 := end_session m uid in
  match get_video_info videos video_name with
  | Raised e => (m1, StartError e)
  | Returned v =>
      let '(session, m2) := create_session m1 uid v.(v_frames) in
      let progress := fst (get_progress_info session) in
      (m2, StartWelcome v.(v_frames)
             (progress.(pi_remaining_steps) + progress.(pi_steps_taken)))
  end.

(** [handle_restart]: the same steps, with the restart welcome text; on
    an exception it shows a fixed error message, not [str(e)]. *)
Definition handle_restart (m : gmap Z UserSession) (uid : Z)
    (videos : pyres (list VideoInfo)) (video_name : string)
  : gmap Z UserSession * StartReply :=
  let m1 := end_session m uid in
  match get_video_info videos video_name with
  | Raised e => (m1, RestartError)
  | Returned video_info =>
      let '(session, m2) := create_session m1 uid video_info.(v_frames) in
      let progress := fst (get_progress_info session) in
      (m2, StartWelcome video_info.(v_frames)
             (progress.(pi_remaining_steps) + progress.(pi_steps_taken)))
  end.

(** The fallback at the top of [show_results]. *)
Definition show_results_found (s : UserSession) : UserSession :=
  match s.(found_frame) with
  | Some f => if f <? 0 then set_found_frame s (s.(total_frames) - 1) else s
  | None => set_found_frame s (s.(total_frames) - 1)
  end.

Inductive FrameReply :=
| ReplyRestart (r : StartReply)
| ReplyInvalid
| ReplyExpired
| ReplyResults (found_frame : option Z) (steps_taken total_frames : Z)
| ReplyFrame (current_frame : Z)
| ReplyError.

(** [handle_frame_response].  [results_shown] tells whether
    [show_results] returned normally (it catches every exception but
    those of its last-resort [send_message]); when it raises, the
    handler's [except] clause reports an error and [end_session] is
    skipped. *)
Definition handle_frame_response (m : gmap Z UserSession) (uid : Z) (response : string)
    (videos : pyres (list VideoInfo)) (video_name : string) (results_shown : bool)
  : gmap Z UserSession * FrameReply :=
  if String.eqb response "restart" then
    let '(m1, r) := handle_restart m uid videos video_name in (m1, ReplyRestart r)
  else if negb (String.eqb response "yes" || String.eqb response "no") then
    (m, ReplyInvalid)
  else
    match get_session m uid with
    | None => (m, ReplyExpired)
    | Some session =>
        let has_launched := String.eqb response "yes" in
        let '(is_complete, s1) := submit_answer has_launched session in
        if is_complete then
          let s2 := match s1.(found_frame) with
                    | None => set_found_frame s1 s1.(current_frame)
                    | Some _ => s1
                    end in
          let s3 := show_results_found s2 in
          if results_shown then
            (end_session (<[uid := s3]> m) uid,
             ReplyResults s3.(found_frame) s3.(steps_taken) s3.(total_frames))
          else (<[uid := s3]> m, ReplyError)
        else (<[uid := s1]> m, ReplyFrame s1.(current_frame))
    end.

(** A user pressing "yes" or "no" on every frame shown, as [oracle]
    decides, until the results are shown; returns the registry, the last
    reply and the number of answers. *)
Fixpoint answer_loop (fuel : nat) (oracle : Z -> bool) (m : gmap Z UserSession)
    (uid : Z) (videos : pyres (list VideoInfo)) (video_name : string)
  : gmap Z UserSession * option FrameReply * nat :=
  match fuel with
  | O => (m, None, O)
  | S f =>
      match get_session m uid with
      | None => (m, None, O)
      | Some s =>
          let response := if oracle s.(current_frame) then "yes" else "no" in
          let '(m1, r) := handle_frame_response m uid response videos video_name true in
          match r with
          | ReplyFrame _ =>
              let '(m2, r2, n) := answer_loop f oracle m1 uid videos video_name in
              (m2, r2, S n)
          | _ => (m1, Some r, 1%nat)
          end
      end
  end.

(** ** Tests *)

Definition paper_run := run 10 (fun i => 5 <=? i) (UserSession_init 1 8).

Example paper_run_found : (fst paper_run).(found_frame) = Some 5 /\ snd paper_run = 3%nat.
Proof. vm_compute. split; reflexivity. Qed.

(** ** Arithmetic of the probe and of the halved range *)

Lemma mid_bounds l r :
  l <= r -> l <= (l + r) / 2 <= r /\ 2 * ((l + r) / 2) <= l + r <= 2 * ((l + r) / 2) + 1.
Proof.
  intros H. pose proof (Z.div_mod (l + r) 2 ltac:(lia)).
  pose proof (Z.mod_pos_bound (l + r) 2 ltac:(lia)). lia.
Qed.

Lemma log2_half_le m n : 1 <= m -> 2 * m <= n -> Z.log2 m + 1 <= Z.log2 n.
Proof.
  intros H1 H2. pose proof (Z.log2_double m ltac:(lia)) as Hd.
  rewrite <- Z.add_1_r in Hd. rewrite <- Hd.
  apply Z.log2_le_mono; lia.
Qed.

Lemma log2_half_eq m n : 1 <= m -> n = 2 * m \/ n = 2 * m + 1 -> Z.log2 n = Z.log2 m + 1.
Proof.
  intros H1 [-> | ->]; rewrite Z.add_1_r;
    [apply Z.log2_double | apply Z.log2_succ_double]; lia.
Qed.

Ltac mid_facts l r :=
  let H := fresh "Hmid" in
  pose proof (mid_bounds l r ltac:(lia)) as H.

(** ** Convergence of the search against a threshold oracle *)

Section Search.

Variable oracle : Z -> bool.
Variable k : Z.

Lemma search_converges (fuel : nat) : forall s : UserSession,
  s.(left_bound) <= s.(right_bound) ->
  s.(current_frame) = (s.(left_bound) + s.(right_bound)) / 2 ->
  (forall i, s.(left_bound) <= i <= s.(right_bound) -> oracle i = (k <=? i)) ->
  s.(left_bound) <= k <= s.(right_bound) + 1 ->
  s.(right_bound) < s.(total_frames) ->
  Z.log2 (s.(right_bound) - s.(left_bound) + 1) + 1 <= Z.of_nat fuel ->
  let '(s', n) := run fuel oracle s in
  s'.(is_finished) = true /\
  s'.(found_frame) = Some (if k <? s.(total_frames) then k else s.(total_frames) - 1) /\
  s'.(total_frames) = s.(total_frames) /\
  (1 <= n)%nat /\
  Z.of_nat n <= Z.log2 (s.(right_bound) - s.(left_bound) + 1) + 1.
Proof.
  induction fuel as [|fuel IH];
    intros [uid tf l r st ff fin cur]; cbn [left_bound right_bound current_frame total_frames];
    intros Hlr Hcur Hor Hk Htf Hfuel.
  - pose proof (Z.log2_nonneg (r - l + 1)). lia.
  - mid_facts l r. rewrite <- Hcur in Hmid.
    cbn [run current_frame]. unfold submit_answer, update_bounds.
    rewrite (Hor cur) by lia.
    destruct (Z.leb_spec k cur) as [Hyes | Hno].
    + unfold next_step. cbn.
      destruct (Z.ltb_spec (cur - 1) l) as [Hfin | Hcont].
      * destruct (Z.ltb_spec l tf); destruct (Z.ltb_spec k tf); cbn;
          pose proof (Z.log2_nonneg (r - l + 1)); repeat split; try reflexivity; try lia.
        f_equal; lia.
      * unfold _calculate_next_frame. cbn. destruct (Z.leb_spec l (cur - 1)); [|lia]. cbn.
        specialize (IH (mkSession uid tf l (cur - 1) (st + 1) ff fin ((l + (cur - 1)) / 2))).
        cbn in IH. replace (cur - 1 - l + 1) with (cur - l) in IH by lia.
        destruct (run fuel oracle _) as [s' n].
        pose proof (log2_half_le (cur - l) (r - l + 1) ltac:(lia) ltac:(lia)).
        destruct IH as (H1 & H2 & H3 & H4 & H5); try lia.
        { intros i Hi. apply Hor. lia. }
        repeat split; try assumption; lia.
    + unfold next_step. cbn.
      destruct (Z.ltb_spec r (cur + 1)) as [Hfin | Hcont].
      * destruct (Z.ltb_spec (cur + 1) tf); destruct (Z.ltb_spec k tf); cbn;
          pose proof (Z.log2_nonneg (r - l + 1)); repeat split; try reflexivity; try lia.
        f_equal; lia.
      * unfold _calculate_next_frame. cbn. destruct (Z.leb_spec (cur + 1) r); [|lia]. cbn.
        specialize (IH (mkSession uid tf (cur + 1) r (st + 1) ff fin ((cur + 1 + r) / 2))).
        cbn in IH. replace (r - (cur + 1) + 1) with (r - cur) in IH by lia.
        destruct (run fuel oracle _) as [s' n].
        pose proof (log2_half_le (r - cur) (r - l + 1) ltac:(lia) ltac:(lia)).
        destruct IH as (H1 & H2 & H3 & H4 & H5); try lia.
        { intros i Hi. apply Hor. lia. }
        repeat split; try assumption; lia.
Qed.

End Search.

Lemma all_no_count (oracle : Z -> bool) (fuel : nat) : forall s : UserSession,
  s.(left_bound) <= s.(right_bound) ->
  s.(current_frame) = (s.(left_bound) + s.(right_bound)) / 2 ->
  (forall i, s.(left_bound) <= i <= s.(right_bound) -> oracle i = false) ->
  Z.log2 (s.(right_bound) - s.(left_bound) + 1) + 1 <= Z.of_nat fuel ->
  Z.of_nat (snd (run fuel oracle s)) = Z.log2 (s.(right_bound) - s.(left_bound) + 1) + 1.
Proof.
  induction fuel as [|fuel IH];
    intros [uid tf l r st ff fin cur]; cbn [left_bound right_bound current_frame total_frames];
    intros Hlr Hcur Hor Hfuel.
  - pose proof (Z.log2_nonneg (r - l + 1)). lia.
  - mid_facts l r. rewrite <- Hcur in Hmid.
    cbn [run current_frame]. unfold submit_answer, update_bounds.
    rewrite (Hor cur) by lia. unfold next_step. cbn.
    destruct (Z.ltb_spec r (cur + 1)) as [Hfin | Hcont].
    + replace (r - l + 1) with 1 by lia.
      destruct (Z.ltb_spec (cur + 1) tf); reflexivity.
    + unfold _calculate_next_frame. cbn. destruct (Z.leb_spec (cur + 1) r); [|lia]. cbn.
      specialize (IH (mkSession uid tf (cur + 1) r (st + 1) ff fin ((cur + 1 + r) / 2))).
      cbn in IH. replace (r - (cur + 1) + 1) with (r - cur) in IH by lia.
      rewrite (log2_half_eq (r - cur) (r - l + 1)) in * by lia.
      specialize (IH ltac:(lia) eq_refl ltac:(intros i Hi; apply Hor; lia) ltac:(lia)).
      destruct (run fuel oracle _) as [s' n]. cbn in *. lia.
Qed.

(** Construction with at least one frame starts the search on the whole
    index range, probing its middle. *)
Lemma init_shape uid tf : 1 <= tf ->
  UserSession_init uid tf =
  mkSession uid tf 0 (tf - 1) 1 None false ((0 + (tf - 1)) / 2).
Proof.
  intros H. unfold UserSession_init, _calculate_next_frame. cbn.
  destruct (Z.leb_spec 0 (tf - 1)); [reflexivity | lia].
Qed.

(** ** C1: the search finds the threshold of a monotonic oracle *)

(** C1. For every [total_frames >= 1] and every oracle answering "no"
    below a threshold [k] and "yes" from [k] on over the frame indices
    ([0 <= k <= total_frames - 1]), submitting the oracle's answer for the
    current probe from a fresh session until [next_step] reports
    completion finishes with [found_frame = k], after at least one and at
    most [ceil(log2 total_frames) + 1] submissions. *)
Theorem C1_threshold_found (uid tf k : Z) (oracle : Z -> bool) :
  1 <= tf -> 0 <= k <= tf - 1 ->
  (forall i, 0 <= i <= tf - 1 -> oracle i = (k <=? i)) ->
  let '(s', n) := run (Z.to_nat (Z.log2_up tf + 1)) oracle (UserSession_init uid tf) in
  s'.(is_finished) = true /\ s'.(found_frame) = Some k /\
  (1 <= n)%nat /\ Z.of_nat n <= Z.log2_up tf + 1.
Proof.
  intros Htf Hk Hor. rewrite init_shape by exact Htf.
  pose proof (Z.le_log2_log2_up tf). pose proof (Z.log2_nonneg tf).
  pose proof (search_converges oracle k (Z.to_nat (Z.log2_up tf + 1))
                (mkSession uid tf 0 (tf - 1) 1 None false ((0 + (tf - 1)) / 2))) as Hs.
  cbn in Hs. replace (tf - 1 - 0 + 1) with tf in Hs by lia.
  destruct (run _ oracle _) as [s' n].
  destruct Hs as (H1 & H2 & _ & H4 & H5); try lia.
  - intros i Hi. apply Hor. lia.
  - destruct (Z.ltb_spec k tf); [|lia]. repeat split; auto. lia.
Qed.

Lemma C1_witness :
  1 <= 8 /\ 0 <= 5 <= 8 - 1 /\
  (forall i, 0 <= i <= 8 - 1 -> (fun j => 5 <=? j) i = (5 <=? i)) /\
  (let '(s', n) := run (Z.to_nat (Z.log2_up 8 + 1)) (fun j => 5 <=? j) (UserSession_init 1 8) in
   s'.(is_finished) = true /\ s'.(found_frame) = Some 5 /\
   (1 <= n)%nat /\ Z.of_nat n <= Z.log2_up 8 + 1).
Proof.
  split; [lia|]. split; [lia|]. split; [intros; reflexivity|].
  apply (C1_threshold_found 1 8 5 (fun j => 5 <=? j)); [lia | lia | intros; reflexivity].
Defined.

(** ** C7: the all-"no" oracle *)

(** C7 (counterexample). With two frames and every probe answered "no",
    the session is not finished after [ceil(log2 2) = 1] submission. *)
Lemma C7_counterexample :
  (fst (run (Z.to_nat (Z.log2_up 2)) (fun _ => false) (UserSession_init 1 2))).(is_finished) = false.
Proof. vm_compute. reflexivity. Qed.

(** C7 (amended). For every [total_frames >= 1], answering "no" to every
    probe finishes the session with [found_frame] clamped to
    [total_frames - 1] after exactly [floor(log2 total_frames) + 1]
    submissions: [ceil(log2 total_frames)] when [total_frames] is not a
    power of two, one more when it is. *)
Theorem C7_all_no_clamped (uid tf : Z) :
  1 <= tf ->
  let '(s', n) := run (Z.to_nat (Z.log2 tf + 1)) (fun _ => false) (UserSession_init uid tf) in
  s'.(is_finished) = true /\ s'.(found_frame) = Some (tf - 1) /\
  Z.of_nat n = Z.log2 tf + 1.
Proof.
  intros Htf. rewrite init_shape by exact Htf.
  pose proof (Z.log2_nonneg tf).
  set (s0 := mkSession uid tf 0 (tf - 1) 1 None false ((0 + (tf - 1)) / 2)).
  pose proof (search_converges (fun _ => false) tf (Z.to_nat (Z.log2 tf + 1)) s0) as Hs.
  pose proof (all_no_count (fun _ => false) (Z.to_nat (Z.log2 tf + 1)) s0) as Hn.
  subst s0. cbn in Hs, Hn. replace (tf - 1 - 0 + 1) with tf in Hs, Hn by lia.
  destruct (run _ _ _) as [s' n]. cbn in Hn.
  destruct Hs as (H1 & H2 & _); try lia.
  destruct (Z.ltb_spec tf tf); [lia|]. repeat split; auto. apply Hn; auto; lia.
Qed.

Lemma C7_witness :
  1 <= 8 /\
  (let '(s', n) := run (Z.to_nat (Z.log2 8 + 1)) (fun _ => false) (UserSession_init 1 8) in
   s'.(is_finished) = true /\ s'.(found_frame) = Some (8 - 1) /\
   Z.of_nat n = Z.log2 8 + 1).
Proof. split; [lia | apply (C7_all_no_clamped 1 8); lia]. Defined.

(** ** Invariant of reachable sessions *)

(** A finished session has crossed bounds with the probe between them and
    a result; an active one probes inside its bounds, except right after
    construction with no frame, where the bounds are already crossed. *)
Definition session_inv (s : UserSession) : Prop :=
  0 <= s.(steps_taken) /\
  if s.(is_finished) then
    s.(right_bound) < s.(left_bound) /\
    s.(right_bound) <= s.(current_frame) <= s.(left_bound) /\
    s.(found_frame) <> None
  else
    s.(left_bound) <= s.(current_frame) <= s.(right_bound) \/
    (s.(total_frames) < 1 /\ s.(right_bound) < s.(left_bound) /\
     s.(right_bound) <= s.(current_frame) <= s.(left_bound)).

Ltac split_cmp :=
  repeat match goal with
  | |- context [?a <=? ?b] => destruct (Z.leb_spec a b)
  | |- context [?a <? ?b] => destruct (Z.ltb_spec a b)
  end.

Ltac mid_all :=
  repeat match goal with
  | |- context [(?a + ?b) / 2] =>
      let H := fresh "Hm" in
      assert (H : a <= b -> a <= (a + b) / 2 <= b) by (intro; apply mid_bounds; lia);
      revert H; generalize ((a + b) / 2); intros ? ?
  end.

Lemma session_inv_init uid tf : session_inv (UserSession_init uid tf).
Proof.
  unfold session_inv, UserSession_init, _calculate_next_frame. cbn.
  split_cmp; cbn; mid_all; lia.
Qed.

Lemma session_inv_submit b s : session_inv s -> session_inv (snd (submit_answer b s)).
Proof.
  destruct s as [uid tf l r st ff fin cur].
  unfold session_inv, submit_answer, update_bounds, next_step, _calculate_next_frame.
  cbn. intros [Hst Hinv].
  destruct b, fin; cbn in *; split_cmp; cbn; mid_all;
    repeat split; try (intro; discriminate); lia.
Qed.

Lemma reachable_inv s : reachable s -> session_inv s.
Proof.
  induction 1; [apply session_inv_init | apply session_inv_submit; assumption].
Qed.

Lemma submit_total_frames b s :
  (snd (submit_answer b s)).(total_frames) = s.(total_frames).
Proof.
  destruct s, b; unfold submit_answer, update_bounds, next_step, _calculate_next_frame;
    cbn; split_cmp; reflexivity.
Qed.

Lemma submit_steps b s :
  s.(steps_taken) <= (snd (submit_answer b s)).(steps_taken) <= s.(steps_taken) + 1.
Proof.
  destruct s, b; unfold submit_answer, update_bounds, next_step, _calculate_next_frame;
    cbn; split_cmp; cbn; lia.
Qed.

Lemma submit_bounds b s :
  (snd (submit_answer b s)).(left_bound) = (update_bounds b s).(left_bound) /\
  (snd (submit_answer b s)).(right_bound) = (update_bounds b s).(right_bound).
Proof.
  destruct s, b; unfold submit_answer, update_bounds, next_step, _calculate_next_frame;
    cbn; split_cmp; cbn; split; reflexivity.
Qed.

(** ** Progress estimate *)

Definition remaining_of_width (w : Z) : Z :=
  if w <=? 0 then 0 else Z.max 0 (Z.log2 (w + 1)).

Definition percentage_of (st rem : Z) : Z :=
  if 0 <? st + rem then Z.min 100 ((st * 100) / (st + rem)) else 100.

Lemma remaining_width s :
  calculate_remaining_steps s = remaining_of_width (s.(right_bound) - s.(left_bound)).
Proof. reflexivity. Qed.

Lemma percentage_formula s :
  progress_percentage s = percentage_of s.(steps_taken) (calculate_remaining_steps s).
Proof. reflexivity. Qed.

Lemma remaining_of_width_mono w1 w2 : w1 <= w2 -> remaining_of_width w1 <= remaining_of_width w2.
Proof.
  intros H. unfold remaining_of_width. split_cmp; try lia.
  pose proof (Z.log2_nonneg (w2 + 1)). pose proof (Z.log2_le_mono (w1 + 1) (w2 + 1)). lia.
Qed.

Lemma remaining_of_width_nonneg w : 0 <= remaining_of_width w.
Proof. unfold remaining_of_width. split_cmp; lia. Qed.

Lemma remaining_of_width_zero w : remaining_of_width w = 0 <-> w <= 0.
Proof.
  unfold remaining_of_width. split_cmp; [lia|].
  pose proof (Z.log2_le_mono 2 (w + 1) ltac:(lia)). change (Z.log2 2) with 1 in *. lia.
Qed.

Lemma percentage_of_mono st rm st' rm' :
  0 <= st <= st' -> 0 <= rm' <= rm -> percentage_of st rm <= percentage_of st' rm'.
Proof.
  intros Hs Hr. unfold percentage_of. split_cmp; try lia.
  - set (a := st * 100 / (st + rm)).
    assert (Ha : (st + rm) * a <= st * 100) by (apply Z.mul_div_le; lia).
    assert (Ha0 : 0 <= a) by (apply Z.div_pos; lia).
    assert (a <= st' * 100 / (st' + rm')).
    { apply Z.div_le_lower_bound; [lia|].
      assert (a <= 100) by nia.
      assert (rm' * a <= rm * a) by nia.
      assert ((100 - a) * st <= (100 - a) * st') by nia.
      nia. }
    lia.
  - assert (rm' = 0) by lia. subst rm'.
    rewrite Z.add_0_r, (Z.mul_comm st' 100), Z.div_mul by lia. lia.
Qed.

Lemma percentage_of_100 st rm :
  0 <= st -> 0 <= rm -> percentage_of st rm = 100 <-> rm = 0.
Proof.
  intros Hs Hr. unfold percentage_of. split_cmp.
  - split; intros Hp.
    + destruct (Z.eq_dec rm 0) as [|Hne]; [assumption|].
      assert (st * 100 / (st + rm) < 100) by (apply Z.div_lt_upper_bound; lia). lia.
    + subst rm. rewrite Z.add_0_r, (Z.mul_comm st 100), Z.div_mul by lia. reflexivity.
  - lia.
Qed.

Lemma remaining_submit b s : session_inv s ->
  calculate_remaining_steps (snd (submit_answer b s)) <= calculate_remaining_steps s.
Proof.
  intros Hinv. rewrite !remaining_width. destruct (submit_bounds b s) as [Hl Hr].
  destruct Hinv as [_ Hinv].
  destruct (Z_le_gt_dec (s.(right_bound) - s.(left_bound)) 0) as [Hw | Hw].
  - (* at most one candidate left: afterwards the bounds are crossed *)
    rewrite (proj2 (remaining_of_width_zero (_ - _))).
    + apply remaining_of_width_nonneg.
    + destruct s as [uid tf l r st ff fin cur]; destruct b, fin; cbn in *; lia.
  - destruct s as [uid tf l r st ff fin cur]; destruct b, fin; cbn in *;
      apply remaining_of_width_mono; lia.
Qed.

(** ** C2: answers submitted to a finished session *)

(** C2 (counterexample). Eight frames, every probe answered
    "yes": the session finishes at frame 0 with [left_bound = 0]; a
    further "no" is not refused, moves [left_bound] to 1 and changes
    [found_frame] to 1. *)
Lemma C2_counterexample :
  let s := fst (run 10 (fun _ => true) (UserSession_init 1 8)) in
  let s' := snd (submit_answer false s) in
  s.(is_finished) = true /\ s.(found_frame) = Some 0 /\ s.(left_bound) = 0 /\
  submitAnswer false s = Ok (true, s') /\
  s'.(found_frame) = Some 1 /\ s'.(left_bound) = 1.
Proof. vm_compute. repeat split; reflexivity. Qed.

(** C2 (amended). Submitting an answer to a finished session reached by
    construction and earlier submissions does not fail: [next_step]
    reports completion again, the session stays finished, [found_frame]
    is recomputed as the updated [left_bound] clamped to
    [total_frames - 1], and the probe and step count stay as they were
    (the bounds and [found_frame] can change). *)
Theorem C2_finished_resubmit (b : bool) (s : UserSession) :
  reachable s -> s.(is_finished) = true ->
  let s' := snd (submit_answer b s) in
  submitAnswer b s = Ok (true, s') /\ s'.(is_finished) = true /\
  s'.(found_frame) = Some (if s'.(left_bound) <? s'.(total_frames)
                           then s'.(left_bound) else s'.(total_frames) - 1) /\
  s'.(current_frame) = s.(current_frame) /\ s'.(steps_taken) = s.(steps_taken).
Proof.
  intros Hr Hfin. pose proof (reachable_inv s Hr) as [_ Hinv].
  destruct s as [uid tf l r st ff fin cur]; cbn in Hfin; subst fin.
  destruct Hinv as (Hc & Hb & _).
  unfold submitAnswer, submit_answer, update_bounds, next_step, _calculate_next_frame.
  destruct b; cbn in *.
  - replace (cur - 1 <? l) with true by (symmetry; apply Z.ltb_lt; lia).
    destruct (Z.ltb_spec l tf); cbn; repeat split; split_cmp; first [lia | reflexivity].
  - replace (r <? cur + 1) with true by (symmetry; apply Z.ltb_lt; lia).
    destruct (Z.ltb_spec (cur + 1) tf); cbn; repeat split; split_cmp; first [lia | reflexivity].
Qed.

Lemma C2_witness :
  let s := fst (run 10 (fun _ => true) (UserSession_init 1 8)) in
  reachable s /\ s.(is_finished) = true /\
  (let s' := snd (submit_answer false s) in
   submitAnswer false s = Ok (true, s') /\ s'.(is_finished) = true /\
   s'.(found_frame) = Some (if s'.(left_bound) <? s'.(total_frames)
                            then s'.(left_bound) else s'.(total_frames) - 1) /\
   s'.(current_frame) = s.(current_frame) /\ s'.(steps_taken) = s.(steps_taken)).
Proof.
  cbv zeta.
  assert (Hr : reachable (fst (run 10 (fun _ => true) (UserSession_init 1 8)))).
  { vm_compute.
    pose (s0 := UserSession_init 1 8).
    pose (s1 := snd (submit_answer true s0)).
    pose (s2 := snd (submit_answer true s1)).
    pose (s3 := snd (submit_answer true s2)).
    assert (E : s3 = mkSession 1 8 0 (-1) 3 (Some 0) true 0) by (vm_compute; reflexivity).
    rewrite <- E. apply reach_submit, reach_submit, reach_submit, reach_init. }
  assert (Hf : (fst (run 10 (fun _ => true) (UserSession_init 1 8))).(is_finished) = true)
    by (vm_compute; reflexivity).
  split; [exact Hr|]. split; [exact Hf|].
  exact (C2_finished_resubmit false _ Hr Hf).
Defined.

(** ** C3: bounds and result after every operation *)

(** C3 (counterexample). Constructing a session with no frame leaves
    [left_bound = 0 > right_bound = -1] while it is not finished. *)
Lemma C3_counterexample :
  let s := UserSession_init 1 0 in
  reachable s /\ s.(is_finished) = false /\ s.(right_bound) < s.(left_bound).
Proof. split; [apply reach_init | vm_compute; split; reflexivity]. Qed.

(** C3 (amended). For every session constructed with
    [total_frames >= 1] and then given any answers, an unfinished session
    has [left_bound <= right_bound], and a finished one has its
    [found_frame] set.  Construction with [total_frames < 1] is not
    rejected: it leaves [left_bound = 0 > right_bound = total_frames - 1]
    with the session unfinished. *)
Theorem C3_bounds_and_result :
  (forall s : UserSession, reachable s -> 1 <= s.(total_frames) ->
     (s.(is_finished) = false -> s.(left_bound) <= s.(right_bound)) /\
     (s.(is_finished) = true -> s.(found_frame) <> None)) /\
  (forall uid tf : Z, tf < 1 ->
     (UserSession_init uid tf).(left_bound) = 0 /\
     (UserSession_init uid tf).(right_bound) = tf - 1 /\
     (UserSession_init uid tf).(right_bound) < (UserSession_init uid tf).(left_bound) /\
     (UserSession_init uid tf).(is_finished) = false).
Proof.
  split.
  - intros s Hr Htf. pose proof (reachable_inv s Hr) as [_ Hinv].
    destruct s as [uid tf l r st ff fin cur]; cbn in *.
    destruct fin; split; intros Hfin; try discriminate; try tauto; lia.
  - intros uid tf Htf. unfold UserSession_init, _calculate_next_frame. cbn.
    destruct (Z.leb_spec 0 (tf - 1)); [lia|]. cbn. lia.
Qed.

Lemma C3_witness :
  (reachable (UserSession_init 1 8) /\ 1 <= (UserSession_init 1 8).(total_frames) /\
   ((UserSession_init 1 8).(is_finished) = false ->
      (UserSession_init 1 8).(left_bound) <= (UserSession_init 1 8).(right_bound)) /\
   ((UserSession_init 1 8).(is_finished) = true -> (UserSession_init 1 8).(found_frame) <> None)) /\
  (-3 < 1 /\
   (UserSession_init 1 (-3)).(left_bound) = 0 /\
   (UserSession_init 1 (-3)).(right_bound) = -3 - 1 /\
   (UserSession_init 1 (-3)).(right_bound) < (UserSession_init 1 (-3)).(left_bound) /\
   (UserSession_init 1 (-3)).(is_finished) = false).
Proof.
  split.
  - split; [apply reach_init|]. split; [vm_compute; discriminate|].
    apply (proj1 C3_bounds_and_result); [apply reach_init | vm_compute; discriminate].
  - split; [lia|]. apply (proj2 C3_bounds_and_result). lia.
Defined.

(** ** C4: the remaining-steps estimate *)




(** ** C5: the progress percentage *)

(** C5 (counterexample). A fresh session over one frame reports 100
    percent while it is not finished. *)
Lemma C5_counterexample :
  progress_percentage (UserSession_init 1 1) = 100 /\
  (UserSession_init 1 1).(is_finished) = false.
Proof. vm_compute. split; reflexivity. Qed.

(** C5 (amended). On every session reached by construction and
    submissions, the progress percentage never decreases from one
    submission to the next; it equals 100 exactly when
    [right_bound - left_bound <= 0] (at most one candidate left), which
    holds for every finished session but also for an active session with
    a single candidate. *)
Theorem C5_progress_monotone (b : bool) (s : UserSession) :
  reachable s ->
  progress_percentage s <= progress_percentage (snd (submit_answer b s)) /\
  (progress_percentage s = 100 <-> s.(right_bound) - s.(left_bound) <= 0) /\
  (s.(is_finished) = true -> progress_percentage s = 100).
Proof.
  intros Hr. pose proof (reachable_inv s Hr) as Hinv.
  pose proof (remaining_submit b s Hinv) as Hrem.
  pose proof (submit_steps b s) as Hst.
  destruct Hinv as [Hst0 Hinv].
  assert (Hz : forall t, 0 <= calculate_remaining_steps t).
  { intros t. rewrite remaining_width. apply remaining_of_width_nonneg. }
  assert (H100 : progress_percentage s = 100 <-> s.(right_bound) - s.(left_bound) <= 0).
  { rewrite percentage_formula, percentage_of_100 by auto.
    rewrite remaining_width. apply remaining_of_width_zero. }
  split; [|split; [exact H100|]].
  - rewrite !percentage_formula. apply percentage_of_mono; [lia|].
    split; [apply Hz | exact Hrem].
  - intros Hfin. apply H100. rewrite Hfin in Hinv. lia.
Qed.

Lemma C5_witness :
  reachable (UserSession_init 1 8) /\
  progress_percentage (UserSession_init 1 8) <=
    progress_percentage (snd (submit_answer true (UserSession_init 1 8))) /\
  (progress_percentage (UserSession_init 1 8) = 100 <->
     (UserSession_init 1 8).(right_bound) - (UserSession_init 1 8).(left_bound) <= 0) /\
  ((UserSession_init 1 8).(is_finished) = true -> progress_percentage (UserSession_init 1 8) = 100).
Proof.
  split; [apply reach_init|]. apply C5_progress_monotone, reach_init.
Defined.

(** ** C6: construction with no frame *)

(** C6 (counterexample). [UserSession(1, 0)] does not raise: it returns
    a session with bounds [0] and [-1], no step and no probe computed. *)
Lemma C6_counterexample :
  construct 1 0 <> Raise InvalidArgument /\
  construct 1 0 = Ok (mkSession 1 0 0 (-1) 0 None false 0).
Proof. split; [discriminate | reflexivity]. Qed.

(** C6 (amended). For every [total_frames < 1], construction does not
    fail: it returns an unfinished session with [left_bound = 0],
    [right_bound = total_frames - 1], [steps_taken = 0],
    [current_frame = 0] and no [found_frame]. *)
Theorem C6_construct_no_frames (uid tf : Z) :
  tf < 1 -> construct uid tf = Ok (mkSession uid tf 0 (tf - 1) 0 None false 0).
Proof.
  intros H. unfold construct, UserSession_init, _calculate_next_frame. cbn.
  destruct (Z.leb_spec 0 (tf - 1)); [lia | reflexivity].
Qed.

Lemma C6_witness :
  0 < 1 /\ construct 1 0 = Ok (mkSession 1 0 0 (0 - 1) 0 None false 0).
Proof. split; [lia | apply C6_construct_no_frames; lia]. Defined.

(** ** C8, C9: the session registry *)

(** C8. In every registry a user identifier is mapped to at most one
    session, and [create_session] replaces whatever session the user had:
    afterwards [get_session] returns exactly the new session, and the
    other users' entries are untouched. *)
Theorem C8_create_replaces (m : gmap Z UserSession) (uid tf : Z) :
  (forall u s1 s2, get_session m u = Some s1 -> get_session m u = Some s2 -> s1 = s2) /\
  let '(session, m') := create_session m uid tf in
  session = UserSession_init uid tf /\
  get_session m' uid = Some session /\
  (forall u, u <> uid -> get_session m' u = get_session m u).
Proof.
  split.
  - intros u s1 s2 H1 H2. rewrite H1 in H2. injection H2. auto.
  - unfold create_session, get_session. split; [reflexivity|]. split.
    + apply lookup_insert_eq.
    + intros u Hne. apply lookup_insert_ne. congruence.
Qed.

(** C9. For a user identifier absent from the registry, [get_session]
    returns [None] and [end_session] leaves the registry as it is. *)
Theorem C9_absent_user (m : gmap Z UserSession) (uid : Z) :
  m !! uid = None -> get_session m uid = None /\ end_session m uid = m.
Proof.
  intros H. unfold get_session, end_session. split; [exact H|].
  rewrite H. destruct (decide (is_Some (@None UserSession))) as [[x Hx] | _];
    [discriminate | reflexivity].
Qed.

Lemma C9_witness :
  let m := <[2 := UserSession_init 2 8]> (∅ : gmap Z UserSession) in
  m !! 1 = None /\ get_session m 1 = None /\ end_session m 1 = m.
Proof.
  cbv zeta.
  assert (H : (<[2 := UserSession_init 2 8]> (∅ : gmap Z UserSession)) !! 1 = None)
    by (rewrite lookup_insert_ne by lia; apply lookup_empty).
  split; [exact H | exact (C9_absent_user _ 1 H)].
Defined.

(** ** C10: the queries do not mutate the session *)

(** C10. [is_complete] and [get_progress_info] hand back the session
    with every attribute unchanged. *)
Theorem C10_queries_pure (s : UserSession) :
  snd (is_complete s) = s /\ snd (get_progress_info s) = s.
Proof. split; reflexivity. Qed.

Lemma C8_witness :
  (forall u s1 s2, get_session (∅ : gmap Z UserSession) u = Some s1 ->
     get_session ∅ u = Some s2 -> s1 = s2) /\
  let '(session, m') := create_session (<[1 := UserSession_init 1 4]> ∅) 1 8 in
  session = UserSession_init 1 8 /\
  get_session m' 1 = Some session /\
  (forall u, u <> 1 -> get_session m' u = get_session (<[1 := UserSession_init 1 4]> ∅) u).
Proof.
  split; [apply (C8_create_replaces ∅ 1 8) | apply (C8_create_replaces _ 1 8)].
Defined.

(** * Further properties of the code *)

(** ** The loop of [find_launch_frame] *)

Lemma log2_up_half w' w :
  1 <= w' -> 2 <= w -> 2 * w' <= w + 1 -> Z.log2_up w' + 1 <= Z.log2_up w.
Proof.
  intros H1 H2 H3.
  pose proof (Z.log2_up_spec w ltac:(lia)) as [Hlo Hhi].
  pose proof (Z.log2_up_pos w ltac:(lia)) as Hp.
  set (p := Z.log2_up w) in *.
  assert (Hpow : 2 ^ p = 2 * 2 ^ (p - 1)).
  { rewrite <- Z.pow_succ_r by lia. f_equal. lia. }
  assert (Z.log2_up w' <= p - 1) by (apply Z.log2_up_le_pow2; lia).
  lia.
Qed.

Lemma bisect_loop_target (tester : Z -> bool) (c : Z) (fuel : nat) : forall l r,
  l < c <= r ->
  (forall i, l < i < r -> tester i = (c <=? i)) ->
  r - l <= Z.of_nat fuel + 1 ->
  fst (bisect_loop fuel tester l r) = c /\
  Forall (fun i => l < i < r) (snd (bisect_loop fuel tester l r)) /\
  Z.of_nat (length (snd (bisect_loop fuel tester l r))) <= Z.log2_up (r - l).
Proof.
  induction fuel as [|fuel IH]; intros l r Hc Ht Hf.
  - cbn. pose proof (Z.log2_up_nonneg (r - l)). repeat split; [lia | constructor | lia].
  - cbn [bisect_loop]. destruct (Z.ltb_spec (l + 1) r) as [Hlt | Hge].
    + mid_facts l r. set (mid := (l + r) / 2) in *.
      assert (Hin : l < mid < r) by lia.
      rewrite (Ht mid Hin).
      destruct (Z.leb_spec c mid) as [Hle | Hgt].
      * specialize (IH l mid ltac:(lia) ltac:(intros i Hi; apply Ht; lia) ltac:(lia)).
        destruct (bisect_loop fuel tester l mid) as [res probes]; cbn in *.
        destruct IH as (IH1 & IH2 & IH3).
        pose proof (log2_up_half (mid - l) (r - l) ltac:(lia) ltac:(lia) ltac:(lia)).
        pose proof (Z.log2_up_le_mono (mid - l) (r - l) ltac:(lia)).
        repeat split; [exact IH1 | | lia].
        constructor; [lia|]. eapply Forall_impl; [exact IH2|]. cbn. lia.
      * specialize (IH mid r ltac:(lia) ltac:(intros i Hi; apply Ht; lia) ltac:(lia)).
        destruct (bisect_loop fuel tester mid r) as [res probes]; cbn in *.
        destruct IH as (IH1 & IH2 & IH3).
        pose proof (log2_up_half (r - mid) (r - l) ltac:(lia) ltac:(lia) ltac:(lia)).
        repeat split; [exact IH1 | | lia].
        constructor; [lia|]. eapply Forall_impl; [exact IH2|]. cbn. lia.
    + cbn. pose proof (Z.log2_up_nonneg (r - l)). repeat split; [lia | constructor | lia].
Qed.

(** The frame [find_launch_frame] converges to for a threshold [k]. *)
Lemma find_target_threshold tf k i :
  2 <= tf -> 0 < i < tf - 1 ->
  (k <=? i) = (Z.max 1 (Z.min k (tf - 1)) <=? i).
Proof. intros H1 H2. split_cmp; lia. Qed.

Lemma bisect_loop_transition (tester : Z -> bool) (L0 R0 : Z) (fuel : nat) : forall l r,
  l < r -> r - l <= Z.of_nat fuel ->
  (l = L0 \/ tester l = false) -> (r = R0 \/ tester r = true) ->
  let res := fst (bisect_loop fuel tester l r) in
  l < res <= r /\ (res = R0 \/ tester res = true) /\
  (res - 1 = L0 \/ tester (res - 1) = false).
Proof.
  induction fuel as [|f IH]; intros l r Hlr Hf HL HR; cbn -[Z.add Z.div]; [lia|].
  destruct (Z.ltb_spec (l + 1) r) as [Hlt | Hge].
  - mid_facts l r.
    destruct (tester ((l + r) / 2)) eqn:Et.
    + pose proof (IH l ((l + r) / 2) ltac:(lia) ltac:(lia) HL (or_intror Et)) as IHr.
      destruct (bisect_loop f tester l ((l + r) / 2)) as [res probes]. cbn in *.
      destruct IHr as (Hb & Hq & Hp). split; [lia | split; assumption].
    + pose proof (IH ((l + r) / 2) r ltac:(lia) ltac:(lia) (or_intror Et) HR) as IHr.
      destruct (bisect_loop f tester ((l + r) / 2) r) as [res probes]. cbn in *.
      destruct IHr as (Hb & Hq & Hp). split; [lia | split; assumption].
  - cbn. split; [lia|]. split; [exact HR|].
    replace (r - 1) with l by lia. exact HL.
Qed.

(** X1. For any tester at all, monotone or not, and [total_frames >= 2],
    [find_launch_frame] returns a frame [r] in [1 .. total_frames - 1]
    that is a transition of the tester: [r] is the last frame or was
    tested as launched, and [r - 1] is frame 0 or was tested as not
    launched. *)
Theorem X1_find_transition (tf : Z) (tester : Z -> bool) :
  2 <= tf ->
  exists r probes, find_launch_frame tf tester = Returned (r, probes) /\
    1 <= r <= tf - 1 /\ (r = tf - 1 \/ tester r = true) /\
    (r - 1 = 0 \/ tester (r - 1) = false).
Proof.
  intros Htf. unfold find_launch_frame.
  destruct (Z.ltb_spec tf 1); [lia|].
  pose proof (bisect_loop_transition tester 0 (tf - 1) (Z.to_nat tf) 0 (tf - 1)
                ltac:(lia) ltac:(lia) (or_introl eq_refl) (or_introl eq_refl)) as Ht.
  destruct (bisect_loop (Z.to_nat tf) tester 0 (tf - 1)) as [r probes]. cbn in Ht.
  destruct Ht as (Hb & Hq & Hp). exists r, probes.
  split; [reflexivity|]. split; [lia|]. split; assumption.
Qed.

Lemma X1_witness :
  2 <= 10 /\
  exists r probes, find_launch_frame 10 (fun i => Z.odd i) = Returned (r, probes) /\
    1 <= r <= 10 - 1 /\ (r = 10 - 1 \/ (fun i => Z.odd i) r = true) /\
    (r - 1 = 0 \/ (fun i => Z.odd i) (r - 1) = false).
Proof. split; [lia | apply (X1_find_transition 10 (fun i => Z.odd i)); lia]. Defined.

Lemma find_launch_frame_threshold_gen (tf k : Z) (tester : Z -> bool) :
  1 <= tf -> (forall i, 0 <= i <= tf - 1 -> tester i = (k <=? i)) ->
  exists res probes,
    find_launch_frame tf tester = Returned (res, probes) /\
    res = (if tf =? 1 then 0 else Z.max 1 (Z.min k (tf - 1))) /\
    Forall (fun i => 0 < i < tf - 1) probes /\
    Z.of_nat (length probes) <= Z.log2_up (tf - 1).
Proof.
  intros Htf Ht. unfold find_launch_frame.
  destruct (Z.ltb_spec tf 1); [lia|].
  destruct (Z.eqb_spec tf 1) as [E | Hne].
  - subst tf. exists 0, [].
    split; [reflexivity|]. split; [reflexivity|]. split; [apply Forall_nil|].
    all: change (Z.log2_up (1 - 1)) with 0; cbn; lia.
  - assert (Ht' : forall i, 0 < i < tf - 1 -> tester i = (Z.max 1 (Z.min k (tf - 1)) <=? i)).
    { intros i Hi. rewrite Ht by lia. apply find_target_threshold; lia. }
    pose proof (bisect_loop_target tester (Z.max 1 (Z.min k (tf - 1))) (Z.to_nat tf)
                  0 (tf - 1) ltac:(lia) Ht' ltac:(lia)) as Hb.
    replace (tf - 1 - 0) with (tf - 1) in Hb by lia.
    destruct (bisect_loop _ tester 0 (tf - 1)) as [res probes]; cbn in Hb.
    destruct Hb as (H1 & H2 & H3).
    exists res, probes. split; [reflexivity|]. split; [exact H1|]. split; [|exact H3].
    eapply Forall_impl; [exact H2|]. cbn. lia.
Qed.

(** X2. For every [total_frames >= 1] and every tester answering "no"
    below a threshold [k] and "yes" from [k] on, [find_launch_frame]
    returns [k] clamped into [1 .. total_frames - 1] (and 0 when there is
    a single frame): it never returns frame 0 for two frames or more,
    because the two end frames are never tested. *)
Theorem X2_find_threshold_result (tf k : Z) (tester : Z -> bool) :
  1 <= tf -> (forall i, 0 <= i <= tf - 1 -> tester i = (k <=? i)) ->
  match find_launch_frame tf tester with
  | Returned (res, _) => res = (if tf =? 1 then 0 else Z.max 1 (Z.min k (tf - 1)))
  | Raised _ => False
  end.
Proof.
  intros Htf Ht. destruct (find_launch_frame_threshold_gen tf k tester Htf Ht)
    as (res & probes & E & Hres & _). rewrite E. exact Hres.
Qed.

Lemma X2_witness :
  1 <= 8 /\ (forall i, 0 <= i <= 8 - 1 -> (fun j => 0 <=? j) i = (0 <=? i)) /\
  match find_launch_frame 8 (fun j => 0 <=? j) with
  | Returned (res, _) => res = (if 8 =? 1 then 0 else Z.max 1 (Z.min 0 (8 - 1)))
  | Raised _ => False
  end.
Proof.
  split; [lia|]. split; [intros; reflexivity|].
  apply (X2_find_threshold_result 8 0); [lia | intros; reflexivity].
Defined.

(** X3. With a threshold tester, every frame [find_launch_frame]
    requests lies strictly between the first and the last frame, and it
    requests at most [ceil(log2(total_frames - 1))] frames. *)
Theorem X3_find_probes_inside (tf k : Z) (tester : Z -> bool) :
  1 <= tf -> (forall i, 0 <= i <= tf - 1 -> tester i = (k <=? i)) ->
  match find_launch_frame tf tester with
  | Returned (_, probes) =>
      Forall (fun i => 0 < i < tf - 1) probes /\
      Z.of_nat (length probes) <= Z.log2_up (tf - 1)
  | Raised _ => False
  end.
Proof.
  intros Htf Ht. destruct (find_launch_frame_threshold_gen tf k tester Htf Ht)
    as (res & probes & E & _ & Hp). rewrite E. exact Hp.
Qed.

Lemma X3_witness :
  1 <= 100 /\ (forall i, 0 <= i <= 100 - 1 -> (fun j => 37 <=? j) i = (37 <=? i)) /\
  match find_launch_frame 100 (fun j => 37 <=? j) with
  | Returned (_, probes) =>
      Forall (fun i => 0 < i < 100 - 1) probes /\
      Z.of_nat (length probes) <= Z.log2_up (100 - 1)
  | Raised _ => False
  end.
Proof.
  split; [lia|]. split; [intros; reflexivity|].
  apply (X3_find_probes_inside 100 37); [lia | intros; reflexivity].
Defined.

(** ** Frame indices handed to the frame service *)

Definition range_inv (s : UserSession) : Prop :=
  1 <= s.(total_frames) ->
  0 <= s.(left_bound) /\ s.(right_bound) <= s.(total_frames) - 1 /\
  0 <= s.(current_frame) <= s.(total_frames) - 1 /\
  match s.(found_frame) with
  | Some f => 0 <= f <= s.(total_frames) - 1
  | None => True
  end.

Lemma range_inv_init uid tf : range_inv (UserSession_init uid tf).
Proof.
  unfold range_inv, UserSession_init, _calculate_next_frame. cbn.
  split_cmp; cbn; mid_all; lia.
Qed.

Lemma range_inv_submit b s :
  session_inv s -> range_inv s -> range_inv (snd (submit_answer b s)).
Proof.
  destruct s as [uid tf l r st ff fin cur].
  unfold session_inv, range_inv, submit_answer, update_bounds, next_step, _calculate_next_frame.
  cbn. intros [_ Hinv] Hr.
  destruct b, fin; cbn in *; split_cmp; cbn; intros Htf; specialize (Hr ltac:(lia));
    destruct ff as [f|]; cbn in *; mid_all; lia.
Qed.

Lemma reachable_range s : reachable s -> range_inv s.
Proof.
  induction 1 as [uid tf | b s Hr IH].
  - apply range_inv_init.
  - apply range_inv_submit; [apply reachable_inv; exact Hr | exact IH].
Qed.

(** X4. In every session constructed with [total_frames >= 1] and then
    given any answers, the frame that [show_current_frame] fetches
    ([current_frame]) is a valid index [0 .. total_frames - 1], and so is
    [found_frame] once set: the fallback of [show_results] for a missing
    or negative [found_frame] never changes a finished session. *)
Theorem X4_frames_in_range (s : UserSession) :
  reachable s -> 1 <= s.(total_frames) ->
  0 <= s.(current_frame) <= s.(total_frames) - 1 /\
  (forall f, s.(found_frame) = Some f -> 0 <= f <= s.(total_frames) - 1) /\
  (s.(is_finished) = true -> show_results_found s = s).
Proof.
  intros Hr Htf. pose proof (reachable_range s Hr Htf) as (_ & _ & Hc & Hf).
  pose proof (reachable_inv s Hr) as [_ Hinv].
  split; [exact Hc|]. split.
  - intros f E. rewrite E in Hf. exact Hf.
  - intros Hdone. unfold show_results_found.
    destruct (found_frame s) as [f|] eqn:E.
    + destruct (Z.ltb_spec f 0); [lia | reflexivity].
    + rewrite Hdone in Hinv. destruct Hinv as (_ & _ & Hn). congruence.
Qed.

Lemma X4_witness :
  reachable (UserSession_init 1 8) /\ 1 <= (UserSession_init 1 8).(total_frames) /\
  0 <= (UserSession_init 1 8).(current_frame) <= (UserSession_init 1 8).(total_frames) - 1 /\
  (forall f, (UserSession_init 1 8).(found_frame) = Some f ->
     0 <= f <= (UserSession_init 1 8).(total_frames) - 1) /\
  ((UserSession_init 1 8).(is_finished) = true ->
     show_results_found (UserSession_init 1 8) = UserSession_init 1 8).
Proof.
  split; [apply reach_init|]. split; [vm_compute; discriminate|].
  apply X4_frames_in_range; [apply reach_init | vm_compute; discriminate].
Defined.

(** ** [/start] and restart *)

Lemma end_session_delete (m : gmap Z UserSession) uid : end_session m uid = delete uid m.
Proof.
  unfold end_session. destruct (decide (is_Some (m !! uid))) as [_ | Hn]; [reflexivity|].
  symmetry. apply delete_id. destruct (m !! uid); [exfalso; apply Hn; eexists; reflexivity | reflexivity].
Qed.

Lemma estimate_init uid tf : 1 <= tf ->
  (fst (get_progress_info (UserSession_init uid tf))).(pi_remaining_steps) +
  (fst (get_progress_info (UserSession_init uid tf))).(pi_steps_taken) = Z.log2 tf + 1.
Proof.
  intros H. rewrite init_shape by exact H. cbn. unfold calculate_remaining_steps. cbn.
  replace (tf - 1 - 0 + 1) with tf by lia.
  pose proof (Z.log2_nonneg tf).
  destruct (Z.leb_spec (tf - 1 - 0) 0).
  - replace tf with 1 by lia. reflexivity.
  - lia.
Qed.

(** X5. [/start] with a metadata response listing a video of the
    configured name: the user's previous session is dropped, the user
    now has a fresh session over that video's frame count (the first
    entry with that name), every other user keeps theirs, and the
    welcome message reports that frame count. *)
Theorem X5_start_creates_session (m : gmap Z UserSession) (uid : Z)
    (vs : list VideoInfo) (name : string) (v : VideoInfo) :
  List.find (fun w => String.eqb w.(v_name) name) vs = Some v ->
  let '(m', reply) := start_command m uid (Returned vs) name in
  get_session m' uid = Some (UserSession_init uid v.(v_frames)) /\
  (forall u, u <> uid -> get_session m' u = get_session m u) /\
  exists est, reply = StartWelcome v.(v_frames) est.
Proof.
  intros Hf. unfold start_command, get_video_info. rewrite Hf.
  cbn [create_session]. rewrite end_session_delete. unfold get_session.
  split; [apply lookup_insert_eq|]. split.
  - intros u Hne. rewrite lookup_insert_ne by congruence. apply lookup_delete_ne. congruence.
  - eexists. reflexivity.
Qed.

Definition falcon : VideoInfo :=
  mkVideo "falcon" 1280 720 61696 [30000; 1001] "u" "f" "l".

Lemma X5_witness :
  List.find (fun w => String.eqb w.(v_name) "falcon") [falcon] = Some falcon /\
  let '(m', reply) := start_command ∅ 7 (Returned [falcon]) "falcon" in
  get_session m' 7 = Some (UserSession_init 7 falcon.(v_frames)) /\
  (forall u, u <> 7 -> get_session m' u = get_session ∅ u) /\
  exists est, reply = StartWelcome falcon.(v_frames) est.
Proof.
  split; [reflexivity|]. apply X5_start_creates_session. reflexivity.
Defined.

(** X6. The "Estimated steps" of the welcome message,
    [remaining_steps + steps_taken] of the fresh session, is
    [floor(log2 total_frames) + 1] for [total_frames >= 1]; no threshold
    oracle needs more answers than that, and the all-"no" oracle needs
    exactly that many. *)
Theorem X6_estimate_bounds_answers (uid tf : Z) :
  1 <= tf ->
  let est := (fst (get_progress_info (UserSession_init uid tf))).(pi_remaining_steps) +
             (fst (get_progress_info (UserSession_init uid tf))).(pi_steps_taken) in
  est = Z.log2 tf + 1 /\
  (forall k (oracle : Z -> bool), 0 <= k <= tf ->
     (forall i, 0 <= i <= tf - 1 -> oracle i = (k <=? i)) ->
     let '(s', n) := run (Z.to_nat est) oracle (UserSession_init uid tf) in
     s'.(is_finished) = true /\ Z.of_nat n <= est) /\
  Z.of_nat (snd (run (Z.to_nat est) (fun _ => false) (UserSession_init uid tf))) = est.
Proof.
  intros Htf. cbv zeta. rewrite (estimate_init uid tf Htf).
  pose proof (Z.log2_nonneg tf).
  rewrite init_shape by exact Htf.
  split; [reflexivity|]. split.
  - intros k oracle Hk Ho.
    pose proof (search_converges oracle k (Z.to_nat (Z.log2 tf + 1))
                  (mkSession uid tf 0 (tf - 1) 1 None false ((0 + (tf - 1)) / 2))) as Hs.
    cbn in Hs. replace (tf - 1 - 0 + 1) with tf in Hs by lia.
    destruct (run _ oracle _) as [s' n].
    destruct Hs as (H1 & _ & _ & _ & H5); try lia.
    + intros i Hi. apply Ho. lia.
    + split; [exact H1 | lia].
  - pose proof (all_no_count (fun _ => false) (Z.to_nat (Z.log2 tf + 1))
                  (mkSession uid tf 0 (tf - 1) 1 None false ((0 + (tf - 1)) / 2))) as Hn.
    cbn in Hn. replace (tf - 1 - 0 + 1) with tf in Hn by lia.
    apply Hn; [lia | reflexivity | reflexivity | lia].
Qed.

(** X7. When the video metadata cannot be had (the request or its
    decoding failed, or no entry carries the configured name), [/start]
    still ends the user's previous session, leaves every other session
    alone, creates none, and reports an error whose message starts with
    ["Failed to get video info: "]. *)
Theorem X7_start_failure (m : gmap Z UserSession) (uid : Z)
    (videos : pyres (list VideoInfo)) (name : string) (e : py_exn) :
  get_video_info videos name = Raised e ->
  start_command m uid videos name = (delete uid m, StartError e) /\
  exists msg, e = PyException ("Failed to get video info: " +:+ msg).
Proof.
  intros He. unfold start_command. rewrite He, end_session_delete. split; [reflexivity|].
  unfold get_video_info in He.
  destruct videos as [vs | e0].
  - destruct (List.find _ vs); [discriminate|]. injection He as <-. eexists. reflexivity.
  - injection He as <-. eexists. reflexivity.
Qed.

Lemma X7_witness :
  get_video_info (Returned [falcon]) "starship" =
    Raised (PyException "Failed to get video info: Video 'starship' not found in API response") /\
  start_command ∅ 7 (Returned [falcon]) "starship" =
    (delete 7 ∅, StartError (PyException "Failed to get video info: Video 'starship' not found in API response")) /\
  exists msg, PyException "Failed to get video info: Video 'starship' not found in API response" =
              PyException ("Failed to get video info: " +:+ msg).
Proof.
  split; [reflexivity|]. apply X7_start_failure. reflexivity.
Defined.

(** X8. The "restart" button has the effect of [/start] on the
    registry, for every outcome of the metadata request, and shows the
    same frame count and step estimate; when [/start] would report an
    error, the restart reports its own fixed error instead. *)
Theorem X8_restart_is_start (m : gmap Z UserSession) (uid : Z)
    (videos : pyres (list VideoInfo)) (name : string) :
  let '(m1, r1) := start_command m uid videos name in
  handle_frame_response m uid "restart" videos name true =
    (m1, ReplyRestart (match r1 with StartWelcome _ _ => r1 | _ => RestartError end)).
Proof.
  unfold handle_frame_response. cbn [String.eqb Ascii.eqb Bool.eqb andb].
  unfold handle_restart, start_command.
  destruct (get_video_info videos name); reflexivity.
Qed.

(** X9. Whatever a user presses ("yes", "no", "restart" or anything
    else), and whether or not the results can be shown, the handler
    changes no other user's session. *)
Theorem X9_other_users_untouched (m : gmap Z UserSession) (uid u : Z) (response : string)
    (videos : pyres (list VideoInfo)) (name : string) (shown : bool) :
  u <> uid ->
  get_session (fst (handle_frame_response m uid response videos name shown)) u = get_session m u.
Proof.
  intros Hne. unfold get_session.
  assert (Hd : forall (m' : gmap Z UserSession), delete uid m' !! u = m' !! u)
    by (intros; apply lookup_delete_ne; congruence).
  assert (Hi : forall (m' : gmap Z UserSession) x, <[uid := x]> m' !! u = m' !! u)
    by (intros; apply lookup_insert_ne; congruence).
  unfold handle_frame_response.
  destruct (String.eqb response "restart").
  - unfold handle_restart. rewrite end_session_delete.
    destruct (get_video_info videos name); cbn; rewrite ?Hi; apply Hd.
  - destruct (negb _); [reflexivity|].
    destruct (get_session m uid) as [s|]; [|reflexivity].
    destruct (submit_answer _ s) as [[|] s1]; cbn.
    + destruct shown; cbn; rewrite ?end_session_delete, ?Hd; apply Hi.
    + apply Hi.
Qed.

Lemma X9_witness :
  8 <> 7 /\
  get_session (fst (handle_frame_response (<[8 := UserSession_init 8 5]> (<[7 := UserSession_init 7 8]> ∅)) 7 "restart"
                      (Returned [falcon]) "falcon" true)) 8 =
  get_session (<[8 := UserSession_init 8 5]> (<[7 := UserSession_init 7 8]> ∅)) 8.
Proof. split; [lia | apply X9_other_users_untouched; lia]. Defined.

Lemma submit_done b s :
  fst (submit_answer b s) = true ->
  (snd (submit_answer b s)).(is_finished) = true /\
  exists f, (snd (submit_answer b s)).(found_frame) = Some f.
Proof.
  destruct s as [uid tf l r st ff fin cur].
  unfold submit_answer, update_bounds, next_step, _calculate_next_frame.
  destruct b; cbn; split_cmp; cbn; intros Hd0; try discriminate; eauto.
Qed.

Lemma finished_results_fixed s :
  reachable s -> 1 <= s.(total_frames) -> s.(is_finished) = true ->
  show_results_found s = s.
Proof.
  intros Hr Htf Hdone. pose proof (reachable_range s Hr Htf) as (_ & _ & _ & Hf).
  pose proof (reachable_inv s Hr) as [_ Hinv].
  unfold show_results_found. destruct (found_frame s) as [f|] eqn:E.
  - destruct (Z.ltb_spec f 0); [lia | reflexivity].
  - rewrite Hdone in Hinv. destruct Hinv as (_ & _ & Hn). congruence.
Qed.

(** Answering "yes" or "no" on a live session, through the handler. *)
Lemma handle_answer_step (m : gmap Z UserSession) (uid : Z) (s : UserSession)
    (response : string) (videos : pyres (list VideoInfo)) (name : string) (shown : bool) :
  reachable s -> 1 <= s.(total_frames) -> get_session m uid = Some s ->
  response = "yes" \/ response = "no" ->
  let '(done_, s1) := submit_answer (String.eqb response "yes") s in
  handle_frame_response m uid response videos name shown =
    if done_ then
      if shown then (delete uid m, ReplyResults s1.(found_frame) s1.(steps_taken) s1.(total_frames))
      else (<[uid := s1]> m, ReplyError)
    else (<[uid := s1]> m, ReplyFrame s1.(current_frame)).
Proof.
  intros Hr Htf Hg Hresp.
  assert (Hpre : handle_frame_response m uid response videos name shown =
    let '(is_complete, s1) := submit_answer (String.eqb response "yes") s in
    if is_complete then
      let s2 := match s1.(found_frame) with
                | None => set_found_frame s1 s1.(current_frame) | Some _ => s1 end in
      let s3 := show_results_found s2 in
      if shown then
        (end_session (<[uid := s3]> m) uid,
         ReplyResults s3.(found_frame) s3.(steps_taken) s3.(total_frames))
      else (<[uid := s3]> m, ReplyError)
    else (<[uid := s1]> m, ReplyFrame s1.(current_frame))).
  { unfold handle_frame_response. rewrite Hg.
    destruct Hresp as [-> | ->]; reflexivity. }
  rewrite Hpre. clear Hpre.
  pose proof (submit_done (String.eqb response "yes") s) as Hd.
  pose proof (reach_submit (String.eqb response "yes") s Hr) as Hr1.
  pose proof (submit_total_frames (String.eqb response "yes") s) as Ht.
  destruct (submit_answer (String.eqb response "yes") s) as [done_ s1]. cbn in Hd, Hr1, Ht.
  destruct done_; [|reflexivity].
  destruct (Hd eq_refl) as [Hfin [f Hf]]. rewrite Hf. cbv beta iota zeta.
  rewrite (finished_results_fixed s1 Hr1 ltac:(lia) Hfin).
  destruct shown; [|reflexivity].
  rewrite end_session_delete, delete_insert_eq, Hf. reflexivity.
Qed.

(** X10. A "yes" or "no" from a user whose session was built over
    [total_frames >= 1]: the answer is submitted to the session held in
    the registry.  If the search goes on, the registry holds the updated
    session and the next frame shown is its [current_frame]; if it is
    complete and the results are shown, the results carry the session's
    own [found_frame], steps and frame count (the fallbacks change
    nothing) and the user's session is removed; if showing the results
    fails, the finished session stays in the registry. *)
Theorem X10_answer_step (m : gmap Z UserSession) (uid : Z) (s : UserSession)
    (response : string) (videos : pyres (list VideoInfo)) (name : string) (shown : bool) :
  reachable s -> 1 <= s.(total_frames) -> get_session m uid = Some s ->
  response = "yes" \/ response = "no" ->
  let '(done_, s1) := submit_answer (String.eqb response "yes") s in
  handle_frame_response m uid response videos name shown =
    if done_ then
      if shown then (delete uid m, ReplyResults s1.(found_frame) s1.(steps_taken) s1.(total_frames))
      else (<[uid := s1]> m, ReplyError)
    else (<[uid := s1]> m, ReplyFrame s1.(current_frame)).
Proof.
  intros Hr Htf Hg Hresp. exact (handle_answer_step m uid s response videos name shown Hr Htf Hg Hresp).
Qed.

Definition registry8 : gmap Z UserSession := <[7 := UserSession_init 7 8]> ∅.

Lemma X10_witness :
  reachable (UserSession_init 7 8) /\ 1 <= (UserSession_init 7 8).(total_frames) /\
  get_session registry8 7 = Some (UserSession_init 7 8) /\
  ("yes" = "yes" \/ "yes" = "no") /\
  let '(done_, s1) := submit_answer (String.eqb "yes" "yes") (UserSession_init 7 8) in
  handle_frame_response registry8 7 "yes" (Returned [falcon]) "falcon" true =
    if done_ then
      if true then (delete 7 registry8, ReplyResults s1.(found_frame) s1.(steps_taken) s1.(total_frames))
      else (<[7 := s1]> registry8, ReplyError)
    else (<[7 := s1]> registry8, ReplyFrame s1.(current_frame)).
Proof.
  split; [apply reach_init|]. split; [vm_compute; discriminate|].
  split; [reflexivity|]. split; [left; reflexivity|].
  apply X10_answer_step; [apply reach_init | vm_compute; discriminate | reflexivity | left; reflexivity].
Defined.

Lemma submit_not_done b s :
  fst (submit_answer b s) = false ->
  (snd (submit_answer b s)).(is_finished) = s.(is_finished).
Proof.
  destruct s as [uid tf l r st ff fin cur].
  unfold submit_answer, update_bounds, next_step, _calculate_next_frame.
  destruct b; cbn; split_cmp; cbn; intros Hd0; try discriminate; reflexivity.
Qed.

Lemma answer_loop_run (oracle : Z -> bool) (uid : Z) (videos : pyres (list VideoInfo))
    (name : string) (fuel : nat) : forall (m : gmap Z UserSession) (s : UserSession),
  reachable s -> 1 <= s.(total_frames) -> s.(is_finished) = false ->
  get_session m uid = Some s ->
  let '(s', n) := run fuel oracle s in
  s'.(is_finished) = true ->
  answer_loop fuel oracle m uid videos name =
    (delete uid m, Some (ReplyResults s'.(found_frame) s'.(steps_taken) s'.(total_frames)), n).
Proof.
  induction fuel as [|fuel IH]; intros m s Hr Htf Hnf Hg.
  - cbn. congruence.
  - cbn [run answer_loop]. rewrite Hg.
    set (response := if oracle s.(current_frame) then "yes" else "no").
    assert (Hb : String.eqb response "yes" = oracle s.(current_frame))
      by (unfold response; destruct (oracle _); reflexivity).
    assert (Hresp : response = "yes" \/ response = "no")
      by (unfold response; destruct (oracle _); [left | right]; reflexivity).
    pose proof (handle_answer_step m uid s response videos name true Hr Htf Hg Hresp) as Hstep.
    rewrite Hb in Hstep.
    pose proof (submit_not_done (oracle s.(current_frame)) s) as Hnd.
    pose proof (reach_submit (oracle s.(current_frame)) s Hr) as Hr1.
    pose proof (submit_total_frames (oracle s.(current_frame)) s) as Ht.
    destruct (submit_answer (oracle s.(current_frame)) s) as [done_ s1]. cbn in Hnd, Hr1, Ht.
    rewrite Hstep. destruct done_.
    + intros _. reflexivity.
    + specialize (IH (<[uid := s1]> m) s1 Hr1 ltac:(lia) ltac:(rewrite (Hnd eq_refl); exact Hnf)
                    ltac:(apply lookup_insert_eq)).
      destruct (run fuel oracle s1) as [s2 n]. intros Hfin.
      rewrite (IH Hfin), delete_insert_eq. reflexivity.
Qed.

(** X11. A whole game: after [/start] on a video of [total_frames >= 1]
    frames, a user answering every frame shown truthfully for a launch at
    frame [k] ("yes" from frame [k] on; [k = total_frames] is a launch
    after the last frame) is shown the results after at most
    [floor(log2 total_frames) + 1] answers, the number the welcome
    message estimates; the reported frame is [k], or the last frame when
    [k = total_frames], and the user no longer has a session while every
    other user keeps theirs. *)
Theorem X11_game_end_to_end (m : gmap Z UserSession) (uid : Z) (vs : list VideoInfo)
    (name : string) (v : VideoInfo) (k : Z) (oracle : Z -> bool) :
  List.find (fun w => String.eqb w.(v_name) name) vs = Some v ->
  1 <= v.(v_frames) -> 0 <= k <= v.(v_frames) ->
  (forall i, 0 <= i <= v.(v_frames) - 1 -> oracle i = (k <=? i)) ->
  let tf := v.(v_frames) in
  exists steps n,
    answer_loop (Z.to_nat (Z.log2 tf + 1)) oracle
      (fst (start_command m uid (Returned vs) name)) uid (Returned vs) name =
    (delete uid m, Some (ReplyResults (Some (if k <? tf then k else tf - 1)) steps tf), n) /\
    (1 <= n)%nat /\ Z.of_nat n <= Z.log2 tf + 1.
Proof.
  intros Hf Htf Hk Ho. cbv zeta.
  set (tf := v.(v_frames)) in *.
  assert (Hm : fst (start_command m uid (Returned vs) name) =
               <[uid := UserSession_init uid tf]> (delete uid m)).
  { unfold start_command, get_video_info. rewrite Hf. cbn [create_session].
    rewrite end_session_delete. reflexivity. }
  rewrite Hm.
  pose proof (answer_loop_run oracle uid (Returned vs) name (Z.to_nat (Z.log2 tf + 1))
                (<[uid := UserSession_init uid tf]> (delete uid m)) (UserSession_init uid tf)
                (reach_init uid tf) ltac:(rewrite init_shape; cbn; lia)
                ltac:(rewrite init_shape by lia; reflexivity)
                ltac:(apply lookup_insert_eq)) as Hl.
  pose proof (Z.log2_nonneg tf).
  pose proof (search_converges oracle k (Z.to_nat (Z.log2 tf + 1)) (UserSession_init uid tf)) as Hs.
  rewrite init_shape in Hs, Hl |- * by lia. cbn in Hs, Hl.
  replace (tf - 1 - 0 + 1) with tf in Hs by lia.
  specialize (Hs ltac:(lia) eq_refl (fun i Hi => Ho i ltac:(lia)) ltac:(lia) ltac:(lia)
                 ltac:(rewrite Z2Nat.id; lia)).
  destruct (run _ oracle _) as [s' n].
  destruct Hs as (H1 & H2 & H3 & H4 & H5).
  exists s'.(steps_taken), n. split; [|lia].
  rewrite (Hl H1), delete_insert_eq, delete_delete_eq, H2, H3. reflexivity.
Qed.

Lemma X11_witness :
  List.find (fun w => String.eqb w.(v_name) "falcon") [falcon] = Some falcon /\
  1 <= falcon.(v_frames) /\ 0 <= 40000 <= falcon.(v_frames) /\
  (forall i, 0 <= i <= falcon.(v_frames) - 1 -> (fun j => 40000 <=? j) i = (40000 <=? i)) /\
  exists steps n,
    answer_loop (Z.to_nat (Z.log2 falcon.(v_frames) + 1)) (fun j => 40000 <=? j)
      (fst (start_command ∅ 7 (Returned [falcon]) "falcon")) 7 (Returned [falcon]) "falcon" =
    (delete 7 ∅, Some (ReplyResults (Some (if 40000 <? falcon.(v_frames) then 40000
                                           else falcon.(v_frames) - 1)) steps falcon.(v_frames)), n) /\
    (1 <= n)%nat /\ Z.of_nat n <= Z.log2 falcon.(v_frames) + 1.
Proof.
  split; [reflexivity|]. split; [cbn; lia|]. split; [cbn; lia|].
  split; [intros i _; reflexivity|].
  apply (X11_game_end_to_end ∅ 7 [falcon] "falcon" falcon 40000 (fun j => 40000 <=? j));
    [reflexivity | cbn; lia | cbn; lia | intros i _; reflexivity].
Defined.

(** ** Frame download, base URL and video lookup *)

(** X12. [get_frame_image] returns data exactly when the request
    succeeded with status 200 and a body of at least 10 bytes starting
    with the JPEG marker [FF D8 FF]; what it returns is then that body,
    unchanged. *)
Theorem X12_frame_image_accepts (resp : pyres HttpResponse) (frame_number : Z)
    (d : list Byte.byte) :
  get_frame_image resp frame_number = Returned d <->
  exists r, resp = Returned r /\ r.(status_code) = 200 /\ r.(content) = d /\
            10 <= Z.of_nat (length d) /\ startswith jpeg_magic d = true.
Proof.
  unfold get_frame_image. split.
  - destruct resp as [r | e]; [|discriminate].
    destruct (Z.eqb_spec (status_code r) 200) as [Hs | Hs]; cbn [negb]; [|discriminate].
    destruct (content r) as [|b bs] eqn:Ec; [discriminate|].
    destruct (Z.ltb_spec (Z.of_nat (length (b :: bs))) 10); cbn [orb]; [discriminate|].
    destruct (startswith jpeg_magic (b :: bs)) eqn:Ej; cbn [negb]; [|discriminate].
    intros E. injection E as <-. exists r. auto.
  - intros (r & -> & Hs & Hc & Hl & Hj). rewrite Hs, Hc.
    replace (200 =? 200) with true by reflexivity. cbn [negb].
    destruct d as [|b bs]; [cbn in Hl; lia|].
    destruct (Z.ltb_spec (Z.of_nat (length (b :: bs))) 10); [lia|].
    rewrite Hj. reflexivity.
Qed.

Fixpoint slashes (n : nat) : string :=
  match n with O => "" | S n' => String "/"%char (slashes n') end.

Lemma las_app (a b : string) :
  String.list_ascii_of_string (a +:+ b) = String.list_ascii_of_string a ++ String.list_ascii_of_string b.
Proof. induction a as [|c a IH]; simpl; [reflexivity | rewrite IH; reflexivity]. Qed.

Lemma las_slashes n : String.list_ascii_of_string (slashes n) = repeat "/"%char n.
Proof. induction n as [|n IH]; cbn; [reflexivity | rewrite IH; reflexivity]. Qed.

Lemma drop_slashes_split l :
  exists n, l = repeat "/"%char n ++ drop_slashes l /\
  forall c r, drop_slashes l = c :: r -> c <> "/"%char.
Proof.
  induction l as [|c l IH].
  - exists O. split; [reflexivity | discriminate].
  - cbn. destruct (Ascii.eqb_spec c "/"%char) as [-> | Hc].
    + destruct IH as [n [Hn Hh]]. exists (S n). split; [cbn; rewrite <- Hn; reflexivity | exact Hh].
    + exists O. split; [reflexivity|]. intros c' r E. injection E as -> _. exact Hc.
Qed.

Lemma drop_slashes_cons_slash l : drop_slashes ("/"%char :: l) = drop_slashes l.
Proof. reflexivity. Qed.

Lemma drop_slashes_idem l : drop_slashes (drop_slashes l) = drop_slashes l.
Proof.
  induction l as [|c l IH]; [reflexivity|]. cbn.
  destruct (Ascii.eqb_spec c "/"%char) as [-> | Hc]; [exact IH|].
  cbn. destruct (Ascii.eqb_spec c "/"%char); [contradiction | reflexivity].
Qed.

Lemma rev_repeat {A} (x : A) n : rev (repeat x n) = repeat x n.
Proof.
  induction n as [|n IH]; [reflexivity|]. cbn [repeat rev]. rewrite IH.
  clear IH. induction n as [|n IH]; [reflexivity|]. cbn. rewrite IH. reflexivity.
Qed.

(** X13. The client's base URL is the configured [API_BASE] with its
    trailing slashes, however many, replaced by exactly one: the result
    is [core + "/"] where [API_BASE] is [core] followed by slashes only
    and [core] does not end with a slash; normalising it again changes
    nothing. *)
Theorem X13_base_url_one_slash (api_base : string) :
  normalize_base_url (normalize_base_url api_base) = normalize_base_url api_base /\
  exists core n, normalize_base_url api_base = core +:+ "/" /\
                 api_base = core +:+ slashes n /\
                 ~ exists pre, core = pre +:+ "/".
Proof.
  set (l := String.list_ascii_of_string api_base).
  destruct (drop_slashes_split (rev l)) as [n [Hn Hh]].
  assert (Hcore : String.list_ascii_of_string (rstrip_slash api_base) = rev (drop_slashes (rev l))).
  { unfold rstrip_slash. rewrite String.list_ascii_of_string_of_list_ascii. reflexivity. }
  split.
  - unfold normalize_base_url at 1. f_equal.
    unfold normalize_base_url. unfold rstrip_slash at 1.
    rewrite las_app, Hcore. change (String.list_ascii_of_string "/") with ["/"%char].
    rewrite rev_app_distr, rev_involutive.
    change (rev ["/"%char] ++ drop_slashes (rev l)) with ("/"%char :: drop_slashes (rev l)).
    rewrite drop_slashes_cons_slash, drop_slashes_idem. reflexivity.
  - exists (rstrip_slash api_base), n. split; [reflexivity|]. split.
    + rewrite <- (String.string_of_list_ascii_of_string (rstrip_slash api_base +:+ slashes n)).
      rewrite las_app, Hcore, las_slashes.
      rewrite <- (rev_repeat "/"%char n), <- rev_app_distr, <- Hn, rev_involutive.
      unfold l. rewrite String.string_of_list_ascii_of_string. reflexivity.
    + intros [pre Hp]. apply (f_equal String.list_ascii_of_string) in Hp.
      rewrite las_app, Hcore in Hp. cbn in Hp.
      apply (f_equal (@rev Ascii.ascii)) in Hp. rewrite rev_involutive, rev_app_distr in Hp.
      cbn in Hp. exact (Hh _ _ Hp eq_refl).
Qed.

Lemma find_first {A} (f : A -> bool) (l : list A) (x : A) :
  List.find f l = Some x <->
  exists pre post, l = pre ++ x :: post /\ f x = true /\ Forall (fun y => f y = false) pre.
Proof.
  induction l as [|y l IH]; cbn.
  - split; [discriminate|]. intros (pre & post & E & _). destruct pre; discriminate.
  - destruct (f y) eqn:Ey; split.
    + intros E. injection E as <-. exists [], l. auto.
    + intros (pre & post & E & Hx & Hpre). destruct pre as [|z pre].
      * injection E as <- _. reflexivity.
      * injection E as <- _. inversion Hpre; congruence.
    + intros Hf. destruct (proj1 IH Hf) as (pre & post & E & Hx & Hpre).
      exists (y :: pre), post. rewrite E. auto.
    + intros (pre & post & E & Hx & Hpre). destruct pre as [|z pre].
      * injection E as <- _. congruence.
      * injection E as <- Et. inversion Hpre as [|? ? _ Hp]. apply IH. eauto.
Qed.

(** X14. [get_video_info] returns a video exactly when the request
    succeeded and the list holds an entry with the requested name; it
    returns the first such entry. *)
Theorem X14_video_first_match (videos : pyres (list VideoInfo)) (name : string) (v : VideoInfo) :
  get_video_info videos name = Returned v <->
  exists vs pre post, videos = Returned vs /\ vs = pre ++ v :: post /\
    v.(v_name) = name /\ Forall (fun w => w.(v_name) <> name) pre.
Proof.
  unfold get_video_info. split.
  - destruct videos as [vs | e]; [|discriminate].
    destruct (List.find _ vs) as [v0|] eqn:Ef; [|discriminate].
    intros E. injection E as <-.
    destruct (proj1 (find_first _ _ _) Ef) as (pre & post & E & Hx & Hpre).
    exists vs, pre, post. split; [reflexivity|]. split; [exact E|].
    split; [apply String.eqb_eq; exact Hx|].
    refine (Forall_impl _ _ _ Hpre _). intros w Hw. apply String.eqb_neq. exact Hw.
  - intros (vs & pre & post & -> & E & Hx & Hpre).
    rewrite (proj2 (find_first (fun w => String.eqb w.(v_name) name) vs v)); [reflexivity|].
    exists pre, post. split; [exact E|]. split; [apply String.eqb_eq; exact Hx|].
    refine (Forall_impl _ _ _ Hpre _). intros w Hw. apply String.eqb_neq. exact Hw.
Qed.

(** X15. A session over a video with no frames ([total_frames < 1],
    which [/start] accepts) ends at the first "yes" or "no": the results
    report frame [total_frames - 1], which is negative, after 0 steps,
    and the user's session is removed. *)
Theorem X15_empty_video_first_answer (m : gmap Z UserSession) (uid tf : Z) (response : string)
    (videos : pyres (list VideoInfo)) (name : string) :
  tf < 1 -> get_session m uid = Some (UserSession_init uid tf) ->
  response = "yes" \/ response = "no" ->
  handle_frame_response m uid response videos name true =
    (delete uid m, ReplyResults (Some (tf - 1)) 0 tf) /\ tf - 1 < 0.
Proof.
  intros Htf Hg Hresp. split; [|lia].
  assert (Hi : UserSession_init uid tf = mkSession uid tf 0 (tf - 1) 0 None false 0).
  { unfold UserSession_init, _calculate_next_frame. cbn.
    destruct (Z.leb_spec 0 (tf - 1)); [lia | reflexivity]. }
  unfold handle_frame_response. rewrite Hg, Hi.
  destruct Hresp as [-> | ->]; cbn [String.eqb Ascii.eqb Bool.eqb andb orb negb];
    unfold submit_answer, update_bounds, next_step, _calculate_next_frame; cbn;
    split_cmp; try lia; cbn;
    unfold show_results_found; cbn; split_cmp; try lia; cbn;
    rewrite end_session_delete, delete_insert_eq; reflexivity.
Qed.

Definition registry0 : gmap Z UserSession := <[7 := UserSession_init 7 0]> ∅.

Lemma X15_witness :
  0 < 1 /\ get_session registry0 7 = Some (UserSession_init 7 0) /\
  ("no" = "yes" \/ "no" = "no") /\
  handle_frame_response registry0 7 "no" (Returned [falcon]) "falcon" true =
    (delete 7 registry0, ReplyResults (Some (0 - 1)) 0 0) /\ 0 - 1 < 0.
Proof.
  split; [lia|]. split; [reflexivity|]. split; [right; reflexivity|].
  apply X15_empty_video_first_answer; [lia | reflexivity | right; reflexivity].
Defined.

(** ** The step estimate shown with every frame *)

Lemma submit_mid b s :
  (snd (submit_answer b s)).(is_finished) = false ->
  (snd (submit_answer b s)).(left_bound) <= (snd (submit_answer b s)).(right_bound) ->
  (snd (submit_answer b s)).(current_frame) =
    ((snd (submit_answer b s)).(left_bound) + (snd (submit_answer b s)).(right_bound)) / 2.
Proof.
  destruct s as [uid tf l r st ff fin cur].
  unfold submit_answer, update_bounds, next_step, _calculate_next_frame.
  destruct b; cbn; split_cmp; cbn; intros; first [discriminate | reflexivity | lia].
Qed.

Lemma reachable_mid s :
  reachable s -> s.(is_finished) = false -> s.(left_bound) <= s.(right_bound) ->
  s.(current_frame) = (s.(left_bound) + s.(right_bound)) / 2.
Proof.
  intros Hr. destruct Hr as [uid tf | b s' _].
  - unfold UserSession_init, _calculate_next_frame. cbn. split_cmp; cbn; intros; [reflexivity | lia].
  - apply submit_mid.
Qed.

Lemma submit_halves b s :
  s.(left_bound) <= s.(right_bound) ->
  s.(current_frame) = (s.(left_bound) + s.(right_bound)) / 2 ->
  fst (submit_answer b s) = false ->
  (snd (submit_answer b s)).(steps_taken) = s.(steps_taken) + 1 /\
  0 <= (snd (submit_answer b s)).(right_bound) - (snd (submit_answer b s)).(left_bound) /\
  2 * ((snd (submit_answer b s)).(right_bound) - (snd (submit_answer b s)).(left_bound) + 1)
    <= s.(right_bound) - s.(left_bound) + 1.
Proof.
  destruct s as [uid tf l r st ff fin cur]. cbn. intros Hlr ->.
  mid_facts l r.
  unfold submit_answer, update_bounds, next_step, _calculate_next_frame.
  destruct b; cbn; split_cmp; cbn; intros Hd0; try discriminate; lia.
Qed.

Lemma remaining_halves w' w :
  0 <= w' -> 2 * (w' + 1) <= w + 1 -> remaining_of_width w' + 1 <= remaining_of_width w.
Proof.
  intros H0 H1. unfold remaining_of_width. split_cmp; try lia.
  - pose proof (log2_half_le 1 (w + 1) ltac:(lia) ltac:(lia)). change (Z.log2 1) with 0 in *. lia.
  - pose proof (log2_half_le (w' + 1) (w + 1) ltac:(lia) ltac:(lia)).
    pose proof (Z.log2_nonneg (w' + 1)). lia.
Qed.

(** X16. The "Step n of ~N" line that [show_current_frame] puts under
    every frame never raises its estimate [N] ([remaining_steps +
    steps_taken]) while a game goes on: an answer that does not end the
    search takes the step count up by one and brings the remaining
    estimate down by at least one. *)
Theorem X16_estimate_never_rises (b : bool) (s : UserSession) :
  reachable s -> s.(is_finished) = false -> fst (submit_answer b s) = false ->
  let p := fst (get_progress_info s) in
  let p1 := fst (get_progress_info (snd (submit_answer b s))) in
  p1.(pi_steps_taken) = p.(pi_steps_taken) + 1 /\
  p1.(pi_remaining_steps) + 1 <= p.(pi_remaining_steps) /\
  p1.(pi_remaining_steps) + p1.(pi_steps_taken) <= p.(pi_remaining_steps) + p.(pi_steps_taken).
Proof.
  intros Hr Hnf Hnd. cbv zeta. cbn [get_progress_info fst pi_steps_taken pi_remaining_steps].
  rewrite !remaining_width.
  pose proof (reachable_inv s Hr) as [_ Hinv]. rewrite Hnf in Hinv.
  assert (Hlr : s.(left_bound) <= s.(right_bound)).
  { destruct Hinv as [Hi | (Htf & Hrl & Hc)]; [lia|].
    exfalso. revert Hnd. destruct s as [uid tf l r st ff fin cur]; cbn in *.
    unfold submit_answer, update_bounds, next_step, _calculate_next_frame.
    destruct b; cbn; split_cmp; cbn; intros Hd0; try discriminate; lia. }
  pose proof (submit_halves b s Hlr (reachable_mid s Hr Hnf Hlr) Hnd) as (Hst & Hw0 & Hw).
  pose proof (remaining_halves _ _ Hw0 Hw). lia.
Qed.

Lemma X16_witness :
  reachable (UserSession_init 1 8) /\ (UserSession_init 1 8).(is_finished) = false /\
  fst (submit_answer false (UserSession_init 1 8)) = false /\
  let p := fst (get_progress_info (UserSession_init 1 8)) in
  let p1 := fst (get_progress_info (snd (submit_answer false (UserSession_init 1 8)))) in
  p1.(pi_steps_taken) = p.(pi_steps_taken) + 1 /\
  p1.(pi_remaining_steps) + 1 <= p.(pi_remaining_steps) /\
  p1.(pi_remaining_steps) + p1.(pi_steps_taken) <= p.(pi_remaining_steps) + p.(pi_steps_taken).
Proof.
  split; [apply reach_init|]. split; [reflexivity|]. split; [reflexivity|].
  apply X16_estimate_never_rises; [apply reach_init | reflexivity | reflexivity].
Defined.
